(** * findhub backend: accounts and parties

    A shallow embedding of the Django models of [accounts/models.py] and
    [parties/models.py] and of the serializers of [accounts/serializers.py],
    with the properties of the derived model attributes, of registration,
    login and password change, and of the uniqueness constraints of the
    party tables.

    Conventions of the embedding:
    - a [DateTimeField] value is an instant, an integer number of
      microseconds ([datetime]); a nullable field is an [option];
    - every call of [timezone.now()] is a read of the clock and the value
      read is an explicit argument of the function that makes the call;
    - a [CharField] value is a [string]; Python's [str.lower] and the
      [iexact] lookup are the ASCII case folding [lower];
    - a table is a finite map from primary key to row; the schema
      constraints ([unique], [unique_together], one-to-one) are checked by
      the write operations, which fail with [IntegrityError];
    - a serializer's [attrs] dictionary is a [gmap string string]; the
      payload given to a serializer holds, for each field that was
      submitted, the value the framework's field hands to the field's
      validators (its own conversion and its checks of format and of
      blank values are the framework's and are not modelled). *)

From Stdlib Require Import ZArith String Ascii.
From stdpp Require Import base option list gmap strings fin_maps.

Local Open Scope string_scope.

(** ** Values *)

Definition datetime := Z.

(** Python truthiness of a nullable datetime: [None] is false, every
    datetime is true. *)
Definition truthy {A} (o : option A) : bool :=
  match o with Some _ => true | None => false end.

Definition lower_ascii (c : ascii) : ascii :=
  let n := nat_of_ascii c in
  if ((65 <=? n) && (n <=? 90))%nat then ascii_of_nat (n + 32) else c.

Fixpoint lower (s : string) : string :=
  match s with
  | EmptyString => EmptyString
  | String c s' => String (lower_ascii c) (lower s')
  end.

(** The [__iexact] field lookup. *)
Definition iexact (stored value : string) : bool :=
  bool_decide (lower stored = lower value).

(** Python truthiness of a string: the empty string is false. *)
Definition nonempty (s : string) : bool :=
  match s with EmptyString => false | _ => true end.

(** Python's [str.isspace] on the ASCII characters: tab to carriage
    return, the four separators and the space. *)
Definition isspace (c : ascii) : bool :=
  let n := nat_of_ascii c in
  (((9 <=? n) && (n <=? 13)) || ((28 <=? n) && (n <=? 32)))%nat.

Fixpoint lstrip (s : string) : string :=
  match s with
  | EmptyString => EmptyString
  | String c s' => if isspace c then lstrip s' else s
  end.

Fixpoint rstrip (s : string) : string :=
  match s with
  | EmptyString => EmptyString
  | String c s' =>
    match rstrip s' with
    | EmptyString => if isspace c then EmptyString else String c EmptyString
    | r => String c r
    end
  end.

(** [s.strip()] *)
Definition strip (s : string) : string := rstrip (lstrip s).

(** The slice [s[:n]]. *)
Fixpoint slice_to (n : nat) (s : string) : string :=
  match n, s with
  | S n', String c s' => String c (slice_to n' s')
  | _, _ => EmptyString
  end.

(** ** accounts/models.py *)

Module User.

Definition USER_TYPES : list (string * string) :=
  [ ("creator", "Event Creator");
    ("attendee", "Party Attendee");
    ("organizer", "Professional Organizer");
    ("admin", "Administrator") ].

(** [password], [username], [first_name], [last_name] and [is_active]
    are the fields inherited from [AbstractUser]; the timestamps
    [created_at] and [updated_at] are left out. *)
Record t := mk {
  id : Z;
  email : string;
  username : string;
  password : string;
  first_name : string;
  last_name : string;
  is_active : bool;
  user_type : string;
  is_verified : bool;
  is_premium : bool;
  premium_expires_at : option datetime;
  last_active : datetime;
  phone_number : option string;
  timezone : string;
  language : string
}.

Definition is_premium_active (now : datetime) (self : t) : bool :=
  if negb (is_premium self) then false
  else match premium_expires_at self with
       | Some expires => bool_decide (expires > now)%Z
       | None => true
       end.

(** Modelled from the spec: [update_last_active] is called by the login
    serializer and is not defined in [accounts/models.py]; the spec has
    login record a "last active" timestamp update. *)
Definition update_last_active (now : datetime) (self : t) : t :=
  mk (id self) (email self) (username self) (password self)
     (first_name self) (last_name self) (is_active self) (user_type self)
     (is_verified self) (is_premium self) (premium_expires_at self)
     now (phone_number self) (timezone self) (language self).

Definition with_password (encoded : string) (self : t) : t :=
  mk (id self) (email self) (username self) encoded
     (first_name self) (last_name self) (is_active self) (user_type self)
     (is_verified self) (is_premium self) (premium_expires_at self)
     (last_active self) (phone_number self) (timezone self) (language self).

(** [full_name]: the two names joined and stripped, or the username when
    nothing is left. *)
Definition full_name (self : t) : string :=
  let joined := strip (first_name self +:+ " " +:+ last_name self) in
  if nonempty joined then joined else username self.

(** [setattr(instance, attr, value)] for the text columns; an attribute
    that is no column is not persisted and leaves the row as it is. *)
Definition setattr (attr value : string) (self : t) : t :=
  if bool_decide (attr = "email") then
    mk (id self) value (username self) (password self) (first_name self) (last_name self)
       (is_active self) (user_type self) (is_verified self) (is_premium self)
       (premium_expires_at self) (last_active self) (phone_number self) (timezone self)
       (language self)
  else if bool_decide (attr = "username") then
    mk (id self) (email self) value (password self) (first_name self) (last_name self)
       (is_active self) (user_type self) (is_verified self) (is_premium self)
       (premium_expires_at self) (last_active self) (phone_number self) (timezone self)
       (language self)
  else if bool_decide (attr = "password") then with_password value self
  else if bool_decide (attr = "first_name") then
    mk (id self) (email self) (username self) (password self) value (last_name self)
       (is_active self) (user_type self) (is_verified self) (is_premium self)
       (premium_expires_at self) (last_active self) (phone_number self) (timezone self)
       (language self)
  else if bool_decide (attr = "last_name") then
    mk (id self) (email self) (username self) (password self) (first_name self) value
       (is_active self) (user_type self) (is_verified self) (is_premium self)
       (premium_expires_at self) (last_active self) (phone_number self) (timezone self)
       (language self)
  else if bool_decide (attr = "user_type") then
    mk (id self) (email self) (username self) (password self) (first_name self)
       (last_name self) (is_active self) value (is_verified self) (is_premium self)
       (premium_expires_at self) (last_active self) (phone_number self) (timezone self)
       (language self)
  else if bool_decide (attr = "phone_number") then
    mk (id self) (email self) (username self) (password self) (first_name self)
       (last_name self) (is_active self) (user_type self) (is_verified self)
       (is_premium self) (premium_expires_at self) (last_active self) (Some value)
       (timezone self) (language self)
  else if bool_decide (attr = "timezone") then
    mk (id self) (email self) (username self) (password self) (first_name self)
       (last_name self) (is_active self) (user_type self) (is_verified self)
       (is_premium self) (premium_expires_at self) (last_active self) (phone_number self)
       value (language self)
  else if bool_decide (attr = "language") then
    mk (id self) (email self) (username self) (password self) (first_name self)
       (last_name self) (is_active self) (user_type self) (is_verified self)
       (is_premium self) (premium_expires_at self) (last_active self) (phone_number self)
       (timezone self) value
  else self.

End User.

Module UserProfile.

(** [user] is the one-to-one key to [User]; the row's own primary key
    is the key of the table. *)
Record t := mk {
  user : Z;
  bio : string;
  location : string;
  website : string;
  privacy_level : string;
  total_parties_created : nat;
  total_parties_attended : nat
}.

(** The row of [UserProfile.objects.create(user=user)]: every other
    field takes its declared default. *)
Definition new (user_id : Z) : t := mk user_id "" "" "" "public" 0 0.

(** [setattr(profile, attr, value)] for the text columns. *)
Definition setattr (attr value : string) (self : t) : t :=
  if bool_decide (attr = "bio") then
    mk (user self) value (location self) (website self) (privacy_level self)
       (total_parties_created self) (total_parties_attended self)
  else if bool_decide (attr = "location") then
    mk (user self) (bio self) value (website self) (privacy_level self)
       (total_parties_created self) (total_parties_attended self)
  else if bool_decide (attr = "website") then
    mk (user self) (bio self) (location self) value (privacy_level self)
       (total_parties_created self) (total_parties_attended self)
  else if bool_decide (attr = "privacy_level") then
    mk (user self) (bio self) (location self) (website self) value
       (total_parties_created self) (total_parties_attended self)
  else self.

End UserProfile.

Module UserSettings.

(** Modelled from the spec: [UserSettings] is imported by the
    serializers from [accounts/models.py], which does not define it;
    the spec has it in a one-to-one relation with [User], created
    alongside the user at registration. *)
Record t := mk { user : Z }.

Definition new (user_id : Z) : t := mk user_id.

End UserSettings.

(** ** parties/models.py *)

Module PartyRSVP.

Record t := mk {
  party : Z;
  user : Z;
  status : string;
  plus_ones : nat;
  message : string;
  dietary_restrictions : string;
  approved_by_host : bool;
  checked_in : bool;
  checked_in_at : option datetime
}.

Definition with_status (s : string) (self : t) : t :=
  mk (party self) (user self) s (plus_ones self) (message self)
     (dietary_restrictions self) (approved_by_host self) (checked_in self)
     (checked_in_at self).

End PartyRSVP.

Module PartyLike.

Record t := mk { party : Z; user : Z }.

End PartyLike.

Module PartyComment.

Record t := mk {
  party : Z;
  user : Z;
  parent : option Z;
  content : string;
  is_edited : bool;
  is_pinned : bool
}.

End PartyComment.

(** ** parties/admin.py *)

Module PartyCommentAdmin.

Definition content_preview (obj : PartyComment.t) : string :=
  if bool_decide (50 < String.length (PartyComment.content obj))%nat
  then slice_to 50 (PartyComment.content obj) +:+ "..."
  else PartyComment.content obj.

End PartyCommentAdmin.

(** ** The store *)

Record DB := mkDB {
  users : gmap Z User.t;
  user_profiles : gmap Z UserProfile.t;
  user_settings : gmap Z UserSettings.t;
  party_rsvps : gmap Z PartyRSVP.t;
  party_likes : gmap Z PartyLike.t
}.

Module Party.

(** The key, the dates and the settings of a party, and one of its
    counters; the columns that none of the derived attributes reads are
    left out. *)
Record t := mk {
  id : Z;
  title : string;
  slug : string;
  host : Z;
  start_date : datetime;
  end_date : datetime;
  rsvp_deadline : option datetime;
  privacy_level : string;
  status : string;
  rsvp_type : string;
  max_attendees : option nat;
  likes_count : nat
}.

Definition is_past (now : datetime) (self : t) : bool :=
  bool_decide (end_date self < now)%Z.

Definition is_upcoming (now : datetime) (self : t) : bool :=
  bool_decide (start_date self > now)%Z.

(** [can_rsvp] reads the clock twice: [now] in the deadline test and
    [now'] inside [is_past]. *)
Definition can_rsvp (now now' : datetime) (self : t) : bool :=
  if bool_decide (rsvp_type self = "closed") then false
  else if truthy (rsvp_deadline self) &&
          match rsvp_deadline self with
          | Some deadline => bool_decide (now > deadline)%Z
          | None => false
          end
  then false
  else if is_past now' self then false
  else true.

(** [self.rsvps] is the reverse manager of the foreign key
    [PartyRSVP.party]: the rows whose [party] is [self]. *)
Definition rsvps (db : DB) (self : t) : gmap Z PartyRSVP.t :=
  filter (λ kv, PartyRSVP.party kv.2 = id self) (party_rsvps db).

Definition attendee_count (db : DB) (self : t) : nat :=
  size (filter (λ kv, PartyRSVP.status kv.2 = "attending") (rsvps db self)).

Definition with_status (s : string) (self : t) : t :=
  mk (id self) (title self) (slug self) (host self) (start_date self)
     (end_date self) (rsvp_deadline self) (privacy_level self) s
     (rsvp_type self) (max_attendees self) (likes_count self).

End Party.

(** The rows [attendee_count] counts, as one predicate on the table. *)
Definition attending_of (p : Party.t) (kv : Z * PartyRSVP.t) : Prop :=
  PartyRSVP.status kv.2 = "attending" ∧ PartyRSVP.party kv.2 = Party.id p.

(** ** Exceptions and the store monad *)

(** The [detail] of a [serializers.ValidationError]: raised with a string
    it is a list of messages, raised with a dictionary it maps field names
    to messages. *)
Inductive detail :=
| Messages (msgs : list string)
| Fields (errors : list (string * list string)).

Inductive exn :=
| ValidationError (d : detail)
| IntegrityError (constraint : string)
| KeyError (key : string)
| ValueError (msg : string)
| DoesNotExist
| MultipleObjectsReturned.

Inductive result (A : Type) :=
| Ok (a : A)
| Raise (e : exn).
Arguments Ok {A} a.
Arguments Raise {A} e.

(** A computation on the store. Every write is committed when it is made:
    the store reached is returned with the exception, too. *)
Definition M (A : Type) : Type := DB → result A * DB.

Definition ret {A} (a : A) : M A := λ db, (Ok a, db).

Definition raise {A} (e : exn) : M A := λ db, (Raise e, db).

Definition bind {A B} (m : M A) (k : A → M B) : M B := λ db,
  match m db with
  | (Ok a, db') => k a db'
  | (Raise e, db') => (Raise e, db')
  end.

Definition lift {A} (r : result A) : M A := λ db, (r, db).

Notation "'let*' x ':=' m 'in' k" := (bind m (λ x, k))
  (at level 10, x name, m at level 100, k at level 200, only parsing).

(** ** Writes and their constraints *)

Module Store.

(** The key an auto-incrementing primary key gives to a new row. *)
Definition next_pk {A} (tbl : gmap Z A) : Z :=
  (1 + map_fold (λ k _ acc, Z.max k acc) 0 tbl)%Z.

(** [users]: primary key [id]; [email] is declared [unique=True] and
    [username] is unique in [AbstractUser]. [others] are the rows a
    write of [u] is compared with. *)
Definition user_conflict (others : gmap Z User.t) (u : User.t) : option string :=
  if bool_decide (map_Exists (λ _ r, User.email r = User.email u) others)
  then Some "users.email"
  else if bool_decide (map_Exists (λ _ r, User.username r = User.username u) others)
  then Some "users.username"
  else None.

(** INSERT of a new user row. *)
Definition User_insert (u : User.t) : M unit := λ db,
  match users db !! User.id u with
  | Some _ => (Raise (IntegrityError "users.id"), db)
  | None =>
    match user_conflict (users db) u with
    | Some c => (Raise (IntegrityError c), db)
    | None =>
      (Ok (), mkDB (<[User.id u := u]> (users db)) (user_profiles db)
                   (user_settings db) (party_rsvps db) (party_likes db))
    end
  end.

(** [user.save()] of a loaded instance: UPDATE of the row of its
    primary key (INSERT when there is none). *)
Definition User_save (u : User.t) : M unit := λ db,
  match user_conflict (delete (User.id u) (users db)) u with
  | Some c => (Raise (IntegrityError c), db)
  | None =>
    (Ok (), mkDB (<[User.id u := u]> (users db)) (user_profiles db)
                 (user_settings db) (party_rsvps db) (party_likes db))
  end.

(** [UserProfile.objects.create(user=user)]; [user] is a one-to-one
    foreign key to [users]. *)
Definition UserProfile_create (user_id : Z) : M UserProfile.t := λ db,
  if bool_decide (users db !! user_id = None)
  then (Raise (IntegrityError "user_profiles.user_id references users.id"), db)
  else if bool_decide (map_Exists (λ _ r, UserProfile.user r = user_id) (user_profiles db))
  then (Raise (IntegrityError "user_profiles.user_id"), db)
  else
    let row := UserProfile.new user_id in
    (Ok row, mkDB (users db) (<[next_pk (user_profiles db) := row]> (user_profiles db))
                  (user_settings db) (party_rsvps db) (party_likes db)).

(** [profile.save()] of a loaded profile: UPDATE of the row [pk]. *)
Definition UserProfile_update (pk : Z) (row : UserProfile.t) : M unit := λ db,
  match user_profiles db !! pk with
  | None => (Raise DoesNotExist, db)
  | Some _ =>
    if bool_decide (users db !! UserProfile.user row = None)
    then (Raise (IntegrityError "user_profiles.user_id references users.id"), db)
    else if bool_decide (map_Exists (λ _ r, UserProfile.user r = UserProfile.user row)
                           (delete pk (user_profiles db)))
    then (Raise (IntegrityError "user_profiles.user_id"), db)
    else (Ok (), mkDB (users db) (<[pk := row]> (user_profiles db)) (user_settings db)
                      (party_rsvps db) (party_likes db))
  end.

(** [UserSettings.objects.create(user=user)]; [user] is a one-to-one
    foreign key to [users]. *)
Definition UserSettings_create (user_id : Z) : M UserSettings.t := λ db,
  if bool_decide (users db !! user_id = None)
  then (Raise (IntegrityError "user_settings.user_id references users.id"), db)
  else if bool_decide (map_Exists (λ _ r, UserSettings.user r = user_id) (user_settings db))
  then (Raise (IntegrityError "user_settings.user_id"), db)
  else
    let row := UserSettings.new user_id in
    (Ok row, mkDB (users db) (user_profiles db)
                  (<[next_pk (user_settings db) := row]> (user_settings db))
                  (party_rsvps db) (party_likes db)).

(** [party_rsvps]: [unique_together = ['party', 'user']]. *)
Definition rsvp_conflict (others : gmap Z PartyRSVP.t) (r : PartyRSVP.t) : bool :=
  bool_decide (map_Exists (λ _ r', PartyRSVP.party r' = PartyRSVP.party r ∧
                                   PartyRSVP.user r' = PartyRSVP.user r) others).

Definition set_party_rsvps (tbl : gmap Z PartyRSVP.t) (db : DB) : DB :=
  mkDB (users db) (user_profiles db) (user_settings db) tbl (party_likes db).

Definition PartyRSVP_create (r : PartyRSVP.t) : M Z := λ db,
  if rsvp_conflict (party_rsvps db) r
  then (Raise (IntegrityError "party_rsvps.party_id, party_rsvps.user_id"), db)
  else
    let pk := next_pk (party_rsvps db) in
    (Ok pk, set_party_rsvps (<[pk := r]> (party_rsvps db)) db).

(** UPDATE of the row [pk] to [r]. *)
Definition PartyRSVP_update (pk : Z) (r : PartyRSVP.t) : M unit := λ db,
  match party_rsvps db !! pk with
  | None => (Raise DoesNotExist, db)
  | Some _ =>
    if rsvp_conflict (delete pk (party_rsvps db)) r
    then (Raise (IntegrityError "party_rsvps.party_id, party_rsvps.user_id"), db)
    else (Ok (), set_party_rsvps (<[pk := r]> (party_rsvps db)) db)
  end.

Definition PartyRSVP_delete (pk : Z) : M unit := λ db,
  (Ok (), set_party_rsvps (delete pk (party_rsvps db)) db).

(** [party_likes]: [unique_together = ['party', 'user']]. *)
Definition like_conflict (others : gmap Z PartyLike.t) (l : PartyLike.t) : bool :=
  bool_decide (map_Exists (λ _ l', PartyLike.party l' = PartyLike.party l ∧
                                   PartyLike.user l' = PartyLike.user l) others).

Definition set_party_likes (tbl : gmap Z PartyLike.t) (db : DB) : DB :=
  mkDB (users db) (user_profiles db) (user_settings db) (party_rsvps db) tbl.

Definition PartyLike_create (l : PartyLike.t) : M Z := λ db,
  if like_conflict (party_likes db) l
  then (Raise (IntegrityError "party_likes.party_id, party_likes.user_id"), db)
  else
    let pk := next_pk (party_likes db) in
    (Ok pk, set_party_likes (<[pk := l]> (party_likes db)) db).

Definition PartyLike_update (pk : Z) (l : PartyLike.t) : M unit := λ db,
  match party_likes db !! pk with
  | None => (Raise DoesNotExist, db)
  | Some _ =>
    if like_conflict (delete pk (party_likes db)) l
    then (Raise (IntegrityError "party_likes.party_id, party_likes.user_id"), db)
    else (Ok (), set_party_likes (<[pk := l]> (party_likes db)) db)
  end.

Definition PartyLike_delete (pk : Z) : M unit := λ db,
  (Ok (), set_party_likes (delete pk (party_likes db)) db).

End Store.

(** ** External collaborators

    The password-policy checker [validate_password] (the messages of the
    rules a password breaks, none when it passes), the password hasher
    [make_password], and the authentication backend's rule
    [user_can_authenticate] are configured outside this code. *)
Class Framework := {
  validate_password : string → list string;
  make_password : string → string;
  user_can_authenticate : User.t → bool
}.

(** [user.check_password(raw)] *)
Definition check_password `{Framework} (raw : string) (user : User.t) : bool :=
  bool_decide (make_password raw = User.password user).

(** [user.set_password(raw)] *)
Definition set_password `{Framework} (raw : string) (user : User.t) : User.t :=
  User.with_password (make_password raw) user.

(** ** The serializer protocol

    [is_valid] runs every declared field in order (presence, the field's
    own checks, its [validators], then the serializer's
    [validate_<field>] method), collects the errors per field, and calls
    [validate] only when no field failed. The validators the framework
    derives from the model for the fields that are only listed in
    [Meta.fields] are not modelled, and the messages of the framework's
    own checks are shortened. *)

Inductive validated :=
| Valid (value : string)
| Invalid (msgs : list string).

Record Field := mkField {
  field_name : string;
  required : bool;
  field_default : option string;
  max_length : option nat;
  choices : option (list string);
  validators : list (DB → string → list string);
  validate_method : option (DB → string → validated)
}.

Definition check_max_length (f : Field) (v : string) : list string :=
  match max_length f with
  | Some n => if (n <? String.length v)%nat
              then ["Ensure this field has no more than the allowed number of characters."]
              else []
  | None => []
  end.

Definition check_choice (f : Field) (v : string) : list string :=
  match choices f with
  | Some cs => if bool_decide (v ∈ cs) then [] else ["Not a valid choice."]
  | None => []
  end.

Definition run_field (db : DB) (f : Field) (data : gmap string string) : option validated :=
  match data !! field_name f with
  | None =>
    if required f then Some (Invalid ["This field is required."])
    else Valid <$> field_default f
  | Some v =>
    match check_choice f v with
    | [] =>
      match (check_max_length f v ++ concat ((λ val, val db v) <$> validators f))%list with
      | [] =>
        match validate_method f with
        | Some method => Some (method db v)
        | None => Some (Valid v)
        end
      | msgs => Some (Invalid msgs)
      end
    | msgs => Some (Invalid msgs)
    end
  end.

Fixpoint to_internal_value (db : DB) (fields : list Field) (data : gmap string string)
  : list (string * list string) * gmap string string :=
  match fields with
  | [] => ([], ∅)
  | f :: fields' =>
    let '(errors, ret) := to_internal_value db fields' data in
    match run_field db f data with
    | Some (Valid v) => (errors, <[field_name f := v]> ret)
    | Some (Invalid msgs) => ((field_name f, msgs) :: errors, ret)
    | None => (errors, ret)
    end
  end.

Definition as_serializer_error (d : detail) : list (string * list string) :=
  match d with
  | Messages msgs => [("non_field_errors", msgs)]
  | Fields errors => errors
  end.

Definition run_validation {A} (fields : list Field)
    (validate : gmap string string → M A) (data : gmap string string) : M A := λ db,
  match to_internal_value db fields data with
  | ([], value) =>
    match validate value db with
    | (Raise (ValidationError d), db') =>
      (Raise (ValidationError (Fields (as_serializer_error d))), db')
    | r => r
    end
  | (errors, _) => (Raise (ValidationError (Fields errors)), db)
  end.

(** [UniqueValidator(queryset=User.objects.all())] on [email]. *)
Definition UniqueValidator_email (db : DB) (value : string) : list string :=
  if bool_decide (map_Exists (λ _ u, User.email u = value) (users db))
  then ["This field must be unique."] else [].

(** [d[key]] *)
Definition getitem (d : gmap string string) (key : string) : result string :=
  match d !! key with
  | Some v => Ok v
  | None => Raise (KeyError key)
  end.

(** [d.pop(key)] *)
Definition pop (key : string) (d : gmap string string) : result (string * gmap string string) :=
  match d !! key with
  | Some v => Ok (v, delete key d)
  | None => Raise (KeyError key)
  end.

(** ** accounts/serializers.py *)

Module UserRegistrationSerializer.
Section WithFramework.
Context `{Framework}.

Definition validate (attrs : gmap string string) : result (gmap string string) :=
  match getitem attrs "password", getitem attrs "password_confirm" with
  | Ok password, Ok password_confirm =>
    if bool_decide (password ≠ password_confirm)
    then Raise (ValidationError (Fields [("password", ["Password fields didn't match."])]))
    else Ok attrs
  | Raise e, _ => Raise e
  | _, Raise e => Raise e
  end.

Definition validate_email (db : DB) (value : string) : validated :=
  if bool_decide (map_Exists (λ _ u, iexact (User.email u) value = true) (users db))
  then Invalid ["A user with this email already exists."]
  else Valid (lower value).

Definition validate_username (db : DB) (value : string) : validated :=
  if bool_decide (map_Exists (λ _ u, iexact (User.username u) value = true) (users db))
  then Invalid ["A user with this username already exists."]
  else Valid value.

Definition email : Field :=
  mkField "email" true None None None [UniqueValidator_email] (Some validate_email).

Definition password : Field :=
  mkField "password" true None None None [λ _, validate_password] None.

Definition password_confirm : Field :=
  mkField "password_confirm" true None None None [] None.

Definition first_name : Field := mkField "first_name" true None (Some 30) None [] None.

Definition last_name : Field := mkField "last_name" true None (Some 30) None [] None.

Definition user_type : Field :=
  mkField "user_type" false (Some "creator") None (Some (User.USER_TYPES.*1)) [] None.

(** [username] is required by [extra_kwargs]; it and the last three
    fields come from [Meta.fields]. *)
Definition username : Field :=
  mkField "username" true None None None [] (Some validate_username).

Definition phone_number : Field := mkField "phone_number" false None None None [] None.

Definition timezone : Field := mkField "timezone" false None None None [] None.

Definition language : Field := mkField "language" false None None None [] None.

Definition fields : list Field :=
  [ email; password; password_confirm; first_name; last_name;
    username; user_type; phone_number; timezone; language ].

(** [User.objects.create_user(password=password, **validated_data)]:
    [pk] is the [uuid4] drawn for [id] and [now] the clock read for
    [last_active]; a field that is not passed takes its declared
    default. The manager refuses an empty username; its normalisation of
    the email and of the username is the identity on the values that
    validation lets through and is left out. *)
Definition create_user (pk : Z) (now : datetime) (password : string)
    (extra : gmap string string) : M User.t :=
  let* username := lift (getitem extra "username") in
  let* _ := lift (if nonempty username then Ok ()
                  else Raise (ValueError "The given username must be set")) in
  let user :=
    User.mk pk (default "" (extra !! "email")) username (make_password password)
      (default "" (extra !! "first_name")) (default "" (extra !! "last_name"))
      true (default "creator" (extra !! "user_type")) false false None now
      (extra !! "phone_number") (default "UTC" (extra !! "timezone"))
      (default "en" (extra !! "language")) in
  let* _ := Store.User_insert user in
  ret user.

Definition create (pk : Z) (now : datetime) (validated_data : gmap string string)
  : M User.t :=
  let* popped := lift (pop "password_confirm" validated_data) in
  let* popped := lift (pop "password" popped.2) in
  let password := popped.1 in
  let validated_data := popped.2 in
  let* user := create_user pk now password validated_data in
  let* _ := Store.UserProfile_create (User.id user) in
  let* _ := Store.UserSettings_create (User.id user) in
  ret user.

(** Registration: [is_valid(raise_exception=True)] and then [save()]. *)
Definition register (pk : Z) (now : datetime) (data : gmap string string) : M User.t :=
  let* validated_data := run_validation fields (λ attrs, lift (validate attrs)) data in
  create pk now validated_data.

End WithFramework.
End UserRegistrationSerializer.

Module UserLoginSerializer.
Section WithFramework.
Context `{Framework}.

(** [User.objects.get_by_natural_key(username)]: [get] on the
    [USERNAME_FIELD], which is [email]. *)
Definition get_by_natural_key (db : DB) (username : string) : result User.t :=
  match map_to_list (filter (λ kv, User.email kv.2 = username) (users db)) with
  | [] => Raise DoesNotExist
  | [(_, user)] => Ok user
  | _ => Raise MultipleObjectsReturned
  end.

(** [django.contrib.auth.authenticate] with a model backend. *)
Definition authenticate (db : DB) (username password : string) : result (option User.t) :=
  match get_by_natural_key db username with
  | Ok user =>
    if check_password password user && user_can_authenticate user
    then Ok (Some user) else Ok None
  | Raise DoesNotExist => Ok None
  | Raise e => Raise e
  end.

Definition email : Field := mkField "email" true None None None [] None.

Definition password : Field := mkField "password" true None None None [] None.

Definition remember_me : Field :=
  mkField "remember_me" false (Some "False") None None [] None.

Definition fields : list Field := [ email; password; remember_me ].

(** The message [Must include "email" and "password".] *)
Definition must_include : string :=
  let q := String (ascii_of_nat 34) EmptyString in
  "Must include " +:+ q +:+ "email" +:+ q +:+ " and " +:+ q +:+ "password" +:+ q +:+ ".".

(** [attrs['user'] = user] is the second component of the value. *)
Definition validate (now : datetime) (attrs : gmap string string)
  : M (gmap string string * User.t) := λ db,
  let email := lower (default "" (attrs !! "email")) in
  let password := default "" (attrs !! "password") in
  if nonempty email && nonempty password then
    match authenticate db email password with
    | Raise e => (Raise e, db)
    | Ok None =>
      (Raise (ValidationError (Messages ["Unable to log in with provided credentials."])), db)
    | Ok (Some user) =>
      if negb (User.is_active user)
      then (Raise (ValidationError (Messages ["User account is disabled."])), db)
      else
        let user := User.update_last_active now user in
        (let* _ := Store.User_save user in ret (attrs, user)) db
    end
  else
    (Raise (ValidationError (Messages [must_include])), db).

(** Login: [is_valid(raise_exception=True)]. *)
Definition login (now : datetime) (data : gmap string string)
  : M (gmap string string * User.t) :=
  run_validation fields (validate now) data.

End WithFramework.
End UserLoginSerializer.

Module PasswordChangeSerializer.
Section WithFramework.
Context `{Framework}.

(** [user] is [self.context['request'].user]. *)
Definition validate_old_password (user : User.t) (db : DB) (value : string) : validated :=
  if negb (check_password value user)
  then Invalid ["Old password is incorrect."]
  else Valid value.

Definition validate (attrs : gmap string string) : result (gmap string string) :=
  match getitem attrs "new_password", getitem attrs "new_password_confirm" with
  | Ok new_password, Ok new_password_confirm =>
    if bool_decide (new_password ≠ new_password_confirm)
    then Raise (ValidationError
                  (Fields [("new_password", ["New password fields didn't match."])]))
    else Ok attrs
  | Raise e, _ => Raise e
  | _, Raise e => Raise e
  end.

Definition old_password (user : User.t) : Field :=
  mkField "old_password" true None None None [] (Some (validate_old_password user)).

Definition new_password : Field :=
  mkField "new_password" true None None None [λ _, validate_password] None.

Definition new_password_confirm : Field :=
  mkField "new_password_confirm" true None None None [] None.

Definition fields (user : User.t) : list Field :=
  [ old_password user; new_password; new_password_confirm ].

Definition save (user : User.t) (validated_data : gmap string string) : M User.t :=
  let* new_password := lift (getitem validated_data "new_password") in
  let user := set_password new_password user in
  let* _ := Store.User_save user in
  ret user.

(** Password change: [is_valid(raise_exception=True)] and then [save()]. *)
Definition change_password (user : User.t) (data : gmap string string) : M User.t :=
  let* validated_data := run_validation (fields user) (λ attrs, lift (validate attrs)) data in
  save user validated_data.

End WithFramework.
End PasswordChangeSerializer.

Module UserUpdateSerializer.

(** [instance.profile], the reverse side of the one-to-one key: the
    profile row of the user, with its key. [hasattr(instance, 'profile')]
    is whether there is one. *)
Definition profile_of (db : DB) (instance : User.t) : option (Z * UserProfile.t) :=
  head (map_to_list (filter (λ kv, UserProfile.user kv.2 = User.id instance)
                            (user_profiles db))).

(** [update(instance, validated_data)]; the nested dictionary under the
    key ['profile'], which [pop] takes out first, is the argument
    [profile_data] ([None] when the key is absent). *)
Definition update (instance : User.t) (validated_data : gmap string string)
    (profile_data : option (gmap string string)) : M User.t :=
  let instance := map_fold User.setattr instance validated_data in
  let* _ := Store.User_save instance in
  let* _ := (λ db,
    match profile_data with
    | Some data =>
      if bool_decide (data ≠ ∅) then
        match profile_of db instance with
        | Some (pk, profile) =>
          Store.UserProfile_update pk (map_fold UserProfile.setattr profile data) db
        | None => (Ok (), db)
        end
      else (Ok (), db)
    | None => (Ok (), db)
    end) in
  ret instance.

End UserUpdateSerializer.

Module PasswordResetRequestSerializer.

Definition validate_email (db : DB) (value : string) : validated :=
  if negb (bool_decide (map_Exists (λ _ u, iexact (User.email u) value = true) (users db)))
  then Invalid ["No user found with this email address."]
  else Valid (lower value).

Definition email : Field := mkField "email" true None None None [] (Some validate_email).

Definition fields : list Field := [ email ].

(** The reset request: [is_valid(raise_exception=True)]; the serializer
    has no [validate] of its own and the inherited one returns [attrs]. *)
Definition request_reset (data : gmap string string) : M (gmap string string) :=
  run_validation fields ret data.

End PasswordResetRequestSerializer.

Module PasswordResetConfirmSerializer.
Section WithFramework.
Context `{Framework}.

Definition validate (attrs : gmap string string) : result (gmap string string) :=
  match getitem attrs "new_password", getitem attrs "new_password_confirm" with
  | Ok new_password, Ok new_password_confirm =>
    if bool_decide (new_password ≠ new_password_confirm)
    then Raise (ValidationError
                  (Fields [("new_password", ["Password fields didn't match."])]))
    else Ok attrs
  | Raise e, _ => Raise e
  | _, Raise e => Raise e
  end.

Definition token : Field := mkField "token" true None None None [] None.

Definition new_password : Field :=
  mkField "new_password" true None None None [λ _, validate_password] None.

Definition new_password_confirm : Field :=
  mkField "new_password_confirm" true None None None [] None.

Definition fields : list Field := [ token; new_password; new_password_confirm ].

(** The reset confirmation: [is_valid(raise_exception=True)]. *)
Definition confirm_reset (data : gmap string string) : M (gmap string string) :=
  run_validation fields (λ attrs, lift (validate attrs)) data.

End WithFramework.
End PasswordResetConfirmSerializer.

(** ** Schema constraints and the reachable stores *)

Module Schema.

(** No two rows of [tbl] agree on [f]. *)
Definition unique_on {A B} (f : A → B) (tbl : gmap Z A) : Prop :=
  map_Forall (λ k1 r1, map_Forall (λ k2 r2, f r1 = f r2 → k1 = k2) tbl) tbl.

#[global] Instance unique_on_dec {A B} `{EqDecision B} (f : A → B) (tbl : gmap Z A) :
  Decision (unique_on f tbl).
Proof. unfold unique_on. apply _. Defined.

Definition rsvp_pair (r : PartyRSVP.t) : Z * Z := (PartyRSVP.party r, PartyRSVP.user r).

Definition like_pair (l : PartyLike.t) : Z * Z := (PartyLike.party l, PartyLike.user l).

Record consistent (db : DB) : Prop := {
  users_pk : map_Forall (λ k u, User.id u = k) (users db);
  users_email : unique_on User.email (users db);
  users_username : unique_on User.username (users db);
  profiles_user : unique_on UserProfile.user (user_profiles db);
  profiles_fk :
    map_Forall (λ _ p, is_Some (users db !! UserProfile.user p)) (user_profiles db);
  settings_user : unique_on UserSettings.user (user_settings db);
  settings_fk :
    map_Forall (λ _ s, is_Some (users db !! UserSettings.user s)) (user_settings db);
  rsvps_pair : unique_on rsvp_pair (party_rsvps db);
  likes_pair : unique_on like_pair (party_likes db)
}.

End Schema.

(** What the serializers keep on top of the schema: stored emails are
    lowercase, and no two users have the same email, or the same username,
    ignoring letter case. *)
Record case_insensitive (db : DB) : Prop := {
  emails_lower : map_Forall (λ _ u, lower (User.email u) = User.email u) (users db);
  emails_iexact : Schema.unique_on (λ u, lower (User.email u)) (users db);
  usernames_iexact : Schema.unique_on (λ u, lower (User.username u)) (users db)
}.

(** [m] keeps the schema constraints, whatever its outcome. *)
Definition preserves {A} (m : M A) : Prop :=
  ∀ db, Schema.consistent db → Schema.consistent (m db).2.

(** The requests that write to the store. [ChangePassword] is made by the
    authenticated user of key [user_pk]. *)
Inductive request :=
| Register (pk : Z) (now : datetime) (data : gmap string string)
| Login (now : datetime) (data : gmap string string)
| ChangePassword (user_pk : Z) (data : gmap string string)
| CreateRSVP (r : PartyRSVP.t)
| UpdateRSVP (pk : Z) (r : PartyRSVP.t)
| DeleteRSVP (pk : Z)
| CreateLike (l : PartyLike.t)
| UpdateLike (pk : Z) (l : PartyLike.t)
| DeleteLike (pk : Z).

Definition empty_db : DB := mkDB ∅ ∅ ∅ ∅ ∅.

Definition handle `{Framework} (db : DB) (req : request) : DB :=
  match req with
  | Register pk now data => (UserRegistrationSerializer.register pk now data db).2
  | Login now data => (UserLoginSerializer.login now data db).2
  | ChangePassword user_pk data =>
    match users db !! user_pk with
    | Some user => (PasswordChangeSerializer.change_password user data db).2
    | None => db
    end
  | CreateRSVP r => (Store.PartyRSVP_create r db).2
  | UpdateRSVP pk r => (Store.PartyRSVP_update pk r db).2
  | DeleteRSVP pk => (Store.PartyRSVP_delete pk db).2
  | CreateLike l => (Store.PartyLike_create l db).2
  | UpdateLike pk l => (Store.PartyLike_update pk l db).2
  | DeleteLike pk => (Store.PartyLike_delete pk db).2
  end.

(** The store after a sequence of requests, from the empty store. *)
Definition run `{Framework} (reqs : list request) : DB := foldl handle empty_db reqs.

Definition reachable `{Framework} (db : DB) : Prop := ∃ reqs, run reqs = db.

(** ** A small world for the examples *)

Module Example.

Local Open Scope Z_scope.

(** A policy with a minimum length, a tagging hasher, and the model
    backend's rule that only active users authenticate. *)
Definition framework : Framework :=
  {| validate_password := λ p,
       if (String.length p <? 8)%nat then ["This password is too short."] else [];
     make_password := λ p, "hashed:" +:+ p;
     user_can_authenticate := User.is_active |}.

Definition ann : User.t :=
  User.mk 1 "ann@example.com" "ann" "hashed:correct horse" "Ann" "Lee" true
          "creator" false true (Some 1000) 0 None "UTC" "en".

Definition bob : User.t :=
  User.mk 2 "bob@example.com" "bob" "hashed:battery staple" "Bob" "Ray" true
          "attendee" false true None 0 None "UTC" "en".

Definition party : Party.t :=
  Party.mk 7 "Launch" "launch" 1 100 200 (Some 90) "public" "draft" "open" None 0%nat.

Definition rsvp_ann : PartyRSVP.t :=
  PartyRSVP.mk 7 1 "maybe" 0%nat "" "" false false None.

Definition rsvp_bob : PartyRSVP.t :=
  PartyRSVP.mk 7 2 "attending" 0%nat "" "" false false None.

Definition rsvp_elsewhere : PartyRSVP.t :=
  PartyRSVP.mk 8 2 "attending" 0%nat "" "" false false None.

Definition db : DB :=
  mkDB (<[1 := ann]> (<[2 := bob]> ∅))
       (<[1 := UserProfile.new 1]> (<[2 := UserProfile.new 2]> ∅))
       (<[1 := UserSettings.new 1]> (<[2 := UserSettings.new 2]> ∅))
       (<[1 := rsvp_ann]> (<[2 := rsvp_bob]> (<[3 := rsvp_elsewhere]> ∅)))
       (<[1 := PartyLike.mk 7 1]> ∅).


End Example.

(** * Properties *)

Local Open Scope Z_scope.

(** ** Derived attributes of [Party] and [User] *)

(** [can_rsvp] as one condition on the party and the two clock reads. *)
Lemma can_rsvp_true_iff (p : Party.t) (now now' : datetime) :
  Party.can_rsvp now now' p = true ↔
  Party.rsvp_type p ≠ "closed" ∧
  (∀ deadline, Party.rsvp_deadline p = Some deadline → ¬ now > deadline) ∧
  ¬ Party.end_date p < now'.
Proof.
  unfold Party.can_rsvp, Party.is_past.
  case_bool_decide as Hclosed; [split; [done | by intros (? & _)] |].
  destruct (Party.rsvp_deadline p) as [deadline |]; simpl.
  - case_bool_decide as Hlate.
    + split; [done |]. intros (_ & Hdeadline & _). by destruct (Hdeadline deadline).
    + case_bool_decide as Hpast.
      * split; [done | by intros (_ & _ & ?)].
      * split; [| done]. intros _. split; [done |]. split; [| done].
        by intros d [= <-].
  - case_bool_decide as Hpast.
    + split; [done | by intros (_ & _ & ?)].
    + split; [| done]. intros _. by split.
Qed.

Lemma can_rsvp_with_status (p : Party.t) (now now' : datetime) (status : string) :
  Party.can_rsvp now now' (Party.with_status status p) = Party.can_rsvp now now' p.
Proof. done. Qed.

(** C1. [can_rsvp] is false when [rsvp_type] is "closed"; false when a
    deadline is set and the clock is strictly after it; false when the
    party is past, that is when [end_date] is strictly before the clock;
    and true in every other case. *)
Theorem can_rsvp_cases (p : Party.t) (now now' : datetime) :
  (Party.rsvp_type p = "closed" → Party.can_rsvp now now' p = false) ∧
  (∀ deadline, Party.rsvp_deadline p = Some deadline → now > deadline →
     Party.can_rsvp now now' p = false) ∧
  (Party.end_date p < now' → Party.can_rsvp now now' p = false) ∧
  (Party.rsvp_type p ≠ "closed" →
   (∀ deadline, Party.rsvp_deadline p = Some deadline → ¬ now > deadline) →
   ¬ Party.end_date p < now' →
   Party.can_rsvp now now' p = true).
Proof.
  pose proof (can_rsvp_true_iff p now now') as Hiff.
  split; [| split; [| split]].
  - intros Hclosed. apply not_true_is_false. intros (Hopen & _)%Hiff. done.
  - intros deadline Hd Hlate. apply not_true_is_false.
    intros (_ & Hdeadline & _)%Hiff. by destruct (Hdeadline deadline).
  - intros Hpast. apply not_true_is_false. intros (_ & _ & Hnot_past)%Hiff. done.
  - intros Hopen Hdeadline Hnot_past. by apply Hiff.
Qed.

Lemma can_rsvp_cases_witness :
  Party.rsvp_type Example.party ≠ "closed" ∧
  ¬ Party.end_date Example.party < 50 ∧
  Party.can_rsvp 50 50 Example.party = true.
Proof.
  split; [done |]. split; [done |].
  apply (can_rsvp_cases Example.party 50 50); [done | | done].
  intros deadline [= <-]. done.
Defined.

(** C2. [is_premium_active] is false for a user that is not premium; for
    a premium user with an expiry it is true exactly when the clock is
    strictly before the expiry; for a premium user without expiry it is
    true. *)
Theorem is_premium_active_cases (u : User.t) (now : datetime) :
  (User.is_premium u = false → User.is_premium_active now u = false) ∧
  (User.is_premium u = true →
   ∀ expires, User.premium_expires_at u = Some expires →
     (User.is_premium_active now u = true ↔ now < expires)) ∧
  (User.is_premium u = true → User.premium_expires_at u = None →
   User.is_premium_active now u = true).
Proof.
  unfold User.is_premium_active. split; [| split].
  - by intros ->.
  - intros -> expires ->. simpl. rewrite bool_decide_eq_true. lia.
  - by intros -> ->.
Qed.

Lemma is_premium_active_cases_witness :
  User.is_premium Example.ann = true ∧
  User.premium_expires_at Example.ann = Some 1000 ∧
  (User.is_premium_active 999 Example.ann = true ↔ 999 < 1000).
Proof.
  split; [done |]. split; [done |].
  by apply (is_premium_active_cases Example.ann 999).
Defined.

(** C10. [can_rsvp] does not read [status]: a party whose [rsvp_type] is
    not "closed", whose deadline (if any) has not passed and whose
    [end_date] is in the future can be answered whatever its status is,
    "draft" and "cancelled" included. *)
Theorem can_rsvp_ignores_status (p : Party.t) (now now' : datetime) :
  Party.rsvp_type p ≠ "closed" →
  (∀ deadline, Party.rsvp_deadline p = Some deadline → ¬ now > deadline) →
  now' < Party.end_date p →
  ∀ status, Party.can_rsvp now now' (Party.with_status status p) = true.
Proof.
  intros Hopen Hdeadline Hfuture status.
  rewrite can_rsvp_with_status. apply can_rsvp_true_iff.
  split; [done |]. split; [done | lia].
Qed.

Lemma can_rsvp_ignores_status_witness :
  Party.rsvp_type Example.party ≠ "closed" ∧
  50 < Party.end_date Example.party ∧
  Party.can_rsvp 50 50 (Party.with_status "draft" Example.party) = true ∧
  Party.can_rsvp 50 50 (Party.with_status "cancelled" Example.party) = true.
Proof.
  assert (Hd : ∀ deadline, Party.rsvp_deadline Example.party = Some deadline →
                 ¬ 50 > deadline) by (by intros deadline [= <-]).
  split; [done |]. split; [done |].
  split; apply (can_rsvp_ignores_status Example.party 50 50); done.
Defined.

(** ** Counting attendees *)

Lemma size_delete_present {A} (m : gmap Z A) (k : Z) (x : A) :
  m !! k = Some x → size m = S (size (delete k m)).
Proof.
  intros Hk.
  pose proof (map_size_insert_None k x (delete k m) (lookup_delete_eq m k)) as Hsize.
  by rewrite insert_delete_id in Hsize.
Qed.

(** Replacing the row of one key moves the size of a filtered table by
    the difference of the two rows' memberships. *)
Lemma size_filter_insert {A} (P : Z * A → Prop) `{!∀ x, Decision (P x)}
    (m : gmap Z A) (k : Z) (old new : A) :
  m !! k = Some old →
  (size (filter P (<[k := new]> m)) + (if decide (P (k, old)) then 1 else 0) =
   size (filter P m) + (if decide (P (k, new)) then 1 else 0))%nat.
Proof.
  intros Hk.
  destruct (decide (P (k, new))) as [Hnew | Hnew], (decide (P (k, old))) as [Hold | Hold].
  - rewrite map_filter_insert_True by done.
    rewrite map_size_insert_Some; [done |].
    exists old. by apply map_lookup_filter_Some.
  - rewrite map_filter_insert_True by done.
    rewrite map_size_insert_None; [lia |].
    apply map_lookup_filter_None. right. by intros x ?; simplify_eq.
  - rewrite map_filter_insert_False, map_filter_delete by done.
    rewrite (size_delete_present (filter P m) k old); [lia |].
    by apply map_lookup_filter_Some.
  - rewrite map_filter_insert_False, map_filter_delete by done.
    rewrite delete_id; [done |].
    apply map_lookup_filter_None. right. by intros x ?; simplify_eq.
Qed.

Lemma attendee_count_filter (db : DB) (p : Party.t) :
  Party.attendee_count db p = size (filter (attending_of p) (party_rsvps db)).
Proof.
  unfold Party.attendee_count, Party.rsvps. by rewrite map_filter_filter.
Qed.

(** An update that keeps the (party, user) pair of its row passes the
    [unique_together] check of a table that satisfies it. *)
Lemma rsvp_update_same_pair (db : DB) (pk : Z) (r r' : PartyRSVP.t) :
  party_rsvps db !! pk = Some r →
  Schema.rsvp_pair r' = Schema.rsvp_pair r →
  Schema.unique_on Schema.rsvp_pair (party_rsvps db) →
  Store.PartyRSVP_update pk r' db =
    (Ok (), Store.set_party_rsvps (<[pk := r']> (party_rsvps db)) db).
Proof.
  intros Hpk Hpair Huniq. unfold Store.PartyRSVP_update. rewrite Hpk.
  unfold Store.rsvp_conflict. rewrite bool_decide_eq_false_2; [done |].
  intros (k & r'' & Hk & Hparty & Huser)%map_Exists_lookup.
  apply lookup_delete_Some in Hk as [Hne Hk].
  apply Hne. apply (Huniq pk r Hpk k r'' Hk).
  rewrite <- Hpair. unfold Schema.rsvp_pair. by rewrite Hparty, Huser.
Qed.

(** C3. [attendee_count] is the number of RSVP rows of the party whose
    status is "attending"; it is computed from the store at each read,
    from no field of the party but its key; and when the status of one of
    the party's RSVPs is updated it moves with it. *)
Theorem attendee_count_counts (db : DB) (p : Party.t) :
  (∀ attending : gset Z,
     (∀ pk, pk ∈ attending ↔
            ∃ r, party_rsvps db !! pk = Some r ∧
                 PartyRSVP.party r = Party.id p ∧ PartyRSVP.status r = "attending") →
     Party.attendee_count db p = size attending) ∧
  (∀ p', Party.id p' = Party.id p →
     Party.attendee_count db p' = Party.attendee_count db p) ∧
  (∀ pk r status,
     party_rsvps db !! pk = Some r →
     PartyRSVP.party r = Party.id p →
     Schema.unique_on Schema.rsvp_pair (party_rsvps db) →
     ∃ db', Store.PartyRSVP_update pk (PartyRSVP.with_status status r) db = (Ok (), db') ∧
       (Party.attendee_count db' p +
          (if bool_decide (PartyRSVP.status r = "attending") then 1 else 0) =
        Party.attendee_count db p +
          (if bool_decide (status = "attending") then 1 else 0))%nat).
Proof.
  split; [| split].
  - intros attending Hspec. rewrite attendee_count_filter, <- size_dom.
    f_equal. apply set_eq. intros pk. rewrite Hspec, elem_of_dom.
    unfold is_Some. setoid_rewrite map_lookup_filter_Some.
    unfold attending_of. simpl. split.
    + intros (r & Hr & Hstatus & Hparty). eauto.
    + intros (r & Hr & Hparty & Hstatus). eauto.
  - intros p' Hid. unfold Party.attendee_count, Party.rsvps. by rewrite Hid.
  - intros pk r status Hpk Hparty Huniq.
    eexists. split; [by apply (rsvp_update_same_pair db pk r) |].
    rewrite !attendee_count_filter. simpl.
    pose proof (size_filter_insert (attending_of p) (party_rsvps db) pk r
                  (PartyRSVP.with_status status r) Hpk) as Hsize.
    assert (Hold : bool_decide (PartyRSVP.status r = "attending") =
                   bool_decide (attending_of p (pk, r))).
    { apply bool_decide_ext. unfold attending_of. simpl. tauto. }
    assert (Hnew : bool_decide (status = "attending") =
                   bool_decide (attending_of p (pk, PartyRSVP.with_status status r))).
    { apply bool_decide_ext. unfold attending_of. simpl. tauto. }
    rewrite Hold, Hnew.
    repeat case_bool_decide; repeat case_decide; try tauto; lia.
Qed.

Lemma attendee_count_counts_witness :
  Party.attendee_count Example.db Example.party = size ({[2]} : gset Z) ∧
  ∃ db', Store.PartyRSVP_update 1 (PartyRSVP.with_status "attending" Example.rsvp_ann)
           Example.db = (Ok (), db') ∧
         (Party.attendee_count db' Example.party + 0 =
          Party.attendee_count Example.db Example.party + 1)%nat.
Proof.
  destruct (attendee_count_counts Example.db Example.party) as (Hcount & _ & Hupdate).
  split.
  - apply Hcount. intros pk. split.
    + intros ->%elem_of_singleton. by exists Example.rsvp_bob.
    + intros (r & Hr & Hparty & Hstatus). apply elem_of_singleton.
      unfold Example.db in Hr. simpl in Hr.
      repeat (apply lookup_insert_Some in Hr as [[<- <-] | [? Hr]]; [done |]).
      done.
  - assert (Huniq : Schema.unique_on Schema.rsvp_pair (party_rsvps Example.db))
      by (apply (bool_decide_unpack _); vm_compute; exact I).
    by apply (Hupdate 1 Example.rsvp_ann "attending").
Defined.

(** ** Keys and uniqueness *)

Lemma next_pk_fresh {A} (tbl : gmap Z A) : tbl !! Store.next_pk tbl = None.
Proof.
  assert (Hmax : ∀ k, is_Some (tbl !! k) → k ≤ map_fold (λ k _ acc, Z.max k acc) 0 tbl).
  { apply (map_fold_weak_ind (λ r (m : gmap Z A), ∀ k, is_Some (m !! k) → k ≤ r)).
    - intros k [x Hx]. by rewrite lookup_empty in Hx.
    - intros i x m r _ IH k [y Hy].
      apply lookup_insert_Some in Hy as [[<- _] | [_ Hy]]; [lia |].
      specialize (IH k (ex_intro _ y Hy)). lia. }
  destruct (tbl !! Store.next_pk tbl) as [x|] eqn:Hpk; [| done].
  specialize (Hmax _ (ex_intro _ x Hpk)). unfold Store.next_pk in Hmax. lia.
Qed.

Section UniqueOn.
Context {A B : Type} (f : A → B).

Lemma unique_on_lookup (tbl : gmap Z A) :
  Schema.unique_on f tbl ↔
  ∀ k1 k2 r1 r2, tbl !! k1 = Some r1 → tbl !! k2 = Some r2 → f r1 = f r2 → k1 = k2.
Proof.
  unfold Schema.unique_on, map_Forall. split.
  - intros Huniq k1 k2 r1 r2 H1 H2. by apply (Huniq k1 r1 H1 k2 r2 H2).
  - intros Huniq k1 r1 H1 k2 r2 H2. by apply (Huniq k1 k2 r1 r2).
Qed.

Lemma unique_on_empty : Schema.unique_on f (∅ : gmap Z A).
Proof. apply unique_on_lookup. intros k1 k2 r1 r2 H1. by rewrite lookup_empty in H1. Qed.

Lemma unique_on_delete (tbl : gmap Z A) (k : Z) :
  Schema.unique_on f tbl → Schema.unique_on f (delete k tbl).
Proof.
  rewrite !unique_on_lookup. intros Huniq k1 k2 r1 r2.
  rewrite !lookup_delete_Some. intros [_ H1] [_ H2]. by apply Huniq.
Qed.

(** Writing [r] at [k] keeps [f] unique when no other row has [r]'s
    value of [f]. *)
Lemma unique_on_insert (tbl : gmap Z A) (k : Z) (r : A) :
  Schema.unique_on f tbl →
  ¬ map_Exists (λ _ r', f r' = f r) (delete k tbl) →
  Schema.unique_on f (<[k := r]> tbl).
Proof.
  rewrite !unique_on_lookup. intros Huniq Hfree k1 k2 r1 r2.
  rewrite !lookup_insert_Some.
  intros [[<- <-] | [Hk1 H1]] [[<- <-] | [Hk2 H2]] Heq; [done | | | by eauto].
  - exfalso. apply Hfree, map_Exists_lookup. exists k2, r2.
    by rewrite lookup_delete_Some.
  - exfalso. apply Hfree, map_Exists_lookup. exists k1, r1.
    by rewrite lookup_delete_Some.
Qed.

Lemma unique_on_insert_fresh (tbl : gmap Z A) (k : Z) (r : A) :
  Schema.unique_on f tbl →
  tbl !! k = None →
  ¬ map_Exists (λ _ r', f r' = f r) tbl →
  Schema.unique_on f (<[k := r]> tbl).
Proof.
  intros Huniq Hk Hfree. apply unique_on_insert; [done |]. by rewrite delete_id.
Qed.

End UniqueOn.

Lemma rsvp_conflict_spec (tbl : gmap Z PartyRSVP.t) (r : PartyRSVP.t) :
  Store.rsvp_conflict tbl r = true ↔
  map_Exists (λ _ r', Schema.rsvp_pair r' = Schema.rsvp_pair r) tbl.
Proof.
  unfold Store.rsvp_conflict, Schema.rsvp_pair. rewrite bool_decide_eq_true.
  rewrite !map_Exists_lookup. split.
  - intros (k & r' & Hk & Hparty & Huser). exists k, r'. by rewrite Hparty, Huser.
  - intros (k & r' & Hk & [= Hparty Huser]). eauto.
Qed.

Lemma like_conflict_spec (tbl : gmap Z PartyLike.t) (l : PartyLike.t) :
  Store.like_conflict tbl l = true ↔
  map_Exists (λ _ l', Schema.like_pair l' = Schema.like_pair l) tbl.
Proof.
  unfold Store.like_conflict, Schema.like_pair. rewrite bool_decide_eq_true.
  rewrite !map_Exists_lookup. split.
  - intros (k & l' & Hk & Hparty & Huser). exists k, l'. by rewrite Hparty, Huser.
  - intros (k & l' & Hk & [= Hparty Huser]). eauto.
Qed.

Lemma rsvp_create_unique (db : DB) (r : PartyRSVP.t) :
  Schema.unique_on Schema.rsvp_pair (party_rsvps db) →
  Schema.unique_on Schema.rsvp_pair (party_rsvps (Store.PartyRSVP_create r db).2).
Proof.
  intros Huniq. unfold Store.PartyRSVP_create.
  destruct (Store.rsvp_conflict (party_rsvps db) r) eqn:Hc; [done |]. simpl.
  apply unique_on_insert_fresh; [done | apply next_pk_fresh |].
  rewrite <- rsvp_conflict_spec. by rewrite Hc.
Qed.

Lemma rsvp_update_unique (db : DB) (pk : Z) (r : PartyRSVP.t) :
  Schema.unique_on Schema.rsvp_pair (party_rsvps db) →
  Schema.unique_on Schema.rsvp_pair (party_rsvps (Store.PartyRSVP_update pk r db).2).
Proof.
  intros Huniq. unfold Store.PartyRSVP_update.
  destruct (party_rsvps db !! pk); [| done].
  destruct (Store.rsvp_conflict (delete pk (party_rsvps db)) r) eqn:Hc; [done |]. simpl.
  apply unique_on_insert; [done |].
  rewrite <- rsvp_conflict_spec. by rewrite Hc.
Qed.

Lemma like_create_unique (db : DB) (l : PartyLike.t) :
  Schema.unique_on Schema.like_pair (party_likes db) →
  Schema.unique_on Schema.like_pair (party_likes (Store.PartyLike_create l db).2).
Proof.
  intros Huniq. unfold Store.PartyLike_create.
  destruct (Store.like_conflict (party_likes db) l) eqn:Hc; [done |]. simpl.
  apply unique_on_insert_fresh; [done | apply next_pk_fresh |].
  rewrite <- like_conflict_spec. by rewrite Hc.
Qed.

Lemma like_update_unique (db : DB) (pk : Z) (l : PartyLike.t) :
  Schema.unique_on Schema.like_pair (party_likes db) →
  Schema.unique_on Schema.like_pair (party_likes (Store.PartyLike_update pk l db).2).
Proof.
  intros Huniq. unfold Store.PartyLike_update.
  destruct (party_likes db !! pk); [| done].
  destruct (Store.like_conflict (delete pk (party_likes db)) l) eqn:Hc; [done |]. simpl.
  apply unique_on_insert; [done |].
  rewrite <- like_conflict_spec. by rewrite Hc.
Qed.

(** ** The schema constraints along every run *)

Lemma preserves_ret {A} (a : A) : preserves (ret a).
Proof. by intros db. Qed.

Lemma preserves_raise {A} (e : exn) : preserves (raise e : M A).
Proof. by intros db. Qed.

Lemma preserves_lift {A} (r : result A) : preserves (lift r).
Proof. by intros db. Qed.

Lemma preserves_bind {A B} (m : M A) (k : A → M B) :
  preserves m → (∀ a, preserves (k a)) → preserves (bind m k).
Proof.
  intros Hm Hk db Hdb. unfold bind. specialize (Hm db Hdb).
  destruct (m db) as [[a | e] db']; simpl in *; [| done]. by apply Hk.
Qed.

Lemma preserves_run_validation {A} (fields : list Field)
    (validate : gmap string string → M A) (data : gmap string string) :
  (∀ attrs, preserves (validate attrs)) →
  preserves (run_validation fields validate data).
Proof.
  intros Hv db Hdb. unfold run_validation.
  destruct (to_internal_value db fields data) as [[| error errors] value]; [| done].
  specialize (Hv value db Hdb).
  destruct (validate value db) as [[a | []] db']; done.
Qed.

Lemma user_conflict_None (others : gmap Z User.t) (u : User.t) :
  Store.user_conflict others u = None →
  ¬ map_Exists (λ _ r, User.email r = User.email u) others ∧
  ¬ map_Exists (λ _ r, User.username r = User.username u) others.
Proof. unfold Store.user_conflict. by repeat case_bool_decide. Qed.

Lemma is_Some_lookup_insert {A} (m : gmap Z A) (i j : Z) (x : A) :
  is_Some (m !! j) → is_Some (<[i := x]> m !! j).
Proof.
  intros Hj. destruct (decide (i = j)) as [<- | Hne].
  - rewrite lookup_insert_eq. by eexists.
  - by rewrite lookup_insert_ne.
Qed.

(** A write of the row [u] at its own key, when no other row has its
    email or its username. *)
Lemma consistent_write_user (db : DB) (u : User.t) :
  Schema.consistent db →
  Store.user_conflict (delete (User.id u) (users db)) u = None →
  Schema.consistent (mkDB (<[User.id u := u]> (users db)) (user_profiles db)
                          (user_settings db) (party_rsvps db) (party_likes db)).
Proof.
  intros [] [Hemail Husername]%user_conflict_None. constructor; simpl; try done.
  - by apply map_Forall_insert_2.
  - by apply unique_on_insert.
  - by apply unique_on_insert.
  - intros k p Hk. by apply is_Some_lookup_insert, (profiles_fk k p).
  - intros k row Hk. by apply is_Some_lookup_insert, (settings_fk k row).
Qed.

Lemma preserves_User_insert (u : User.t) : preserves (Store.User_insert u).
Proof.
  intros db Hdb. unfold Store.User_insert.
  destruct (users db !! User.id u) eqn:Hfree; [done |].
  destruct (Store.user_conflict (users db) u) eqn:Hconflict; [done |]. simpl.
  apply consistent_write_user; [done |]. by rewrite delete_id.
Qed.

Lemma preserves_User_save (u : User.t) : preserves (Store.User_save u).
Proof.
  intros db Hdb. unfold Store.User_save.
  destruct (Store.user_conflict (delete (User.id u) (users db)) u) eqn:Hconflict; [done |].
  by apply consistent_write_user.
Qed.

Lemma preserves_UserProfile_create (user_id : Z) :
  preserves (Store.UserProfile_create user_id).
Proof.
  intros db Hdb. unfold Store.UserProfile_create.
  case_bool_decide as Huser; [done |]. case_bool_decide as Hfree; [done |].
  destruct Hdb. constructor; simpl; try done.
  - apply unique_on_insert_fresh; [done | apply next_pk_fresh | done].
  - apply map_Forall_insert_2; [| done]. simpl.
    by destruct (users db !! user_id); [eexists |].
Qed.

Lemma preserves_UserSettings_create (user_id : Z) :
  preserves (Store.UserSettings_create user_id).
Proof.
  intros db Hdb. unfold Store.UserSettings_create.
  case_bool_decide as Huser; [done |]. case_bool_decide as Hfree; [done |].
  destruct Hdb. constructor; simpl; try done.
  - apply unique_on_insert_fresh; [done | apply next_pk_fresh | done].
  - apply map_Forall_insert_2; [| done]. simpl.
    by destruct (users db !! user_id); [eexists |].
Qed.

Lemma preserves_PartyRSVP_create (r : PartyRSVP.t) : preserves (Store.PartyRSVP_create r).
Proof.
  intros db Hdb. pose proof (rsvp_create_unique db r) as Huniq.
  unfold Store.PartyRSVP_create in *.
  destruct (Store.rsvp_conflict (party_rsvps db) r); [done |].
  destruct Hdb. constructor; simpl; try done. by apply Huniq.
Qed.

Lemma preserves_PartyRSVP_update (pk : Z) (r : PartyRSVP.t) :
  preserves (Store.PartyRSVP_update pk r).
Proof.
  intros db Hdb. pose proof (rsvp_update_unique db pk r) as Huniq.
  unfold Store.PartyRSVP_update in *. destruct (party_rsvps db !! pk); [| done].
  destruct (Store.rsvp_conflict (delete pk (party_rsvps db)) r); [done |].
  destruct Hdb. constructor; simpl; try done. by apply Huniq.
Qed.

Lemma preserves_PartyRSVP_delete (pk : Z) : preserves (Store.PartyRSVP_delete pk).
Proof.
  intros db []. constructor; simpl; try done. by apply unique_on_delete.
Qed.

Lemma preserves_PartyLike_create (l : PartyLike.t) : preserves (Store.PartyLike_create l).
Proof.
  intros db Hdb. pose proof (like_create_unique db l) as Huniq.
  unfold Store.PartyLike_create in *.
  destruct (Store.like_conflict (party_likes db) l); [done |].
  destruct Hdb. constructor; simpl; try done. by apply Huniq.
Qed.

Lemma preserves_PartyLike_update (pk : Z) (l : PartyLike.t) :
  preserves (Store.PartyLike_update pk l).
Proof.
  intros db Hdb. pose proof (like_update_unique db pk l) as Huniq.
  unfold Store.PartyLike_update in *. destruct (party_likes db !! pk); [| done].
  destruct (Store.like_conflict (delete pk (party_likes db)) l); [done |].
  destruct Hdb. constructor; simpl; try done. by apply Huniq.
Qed.

Lemma preserves_PartyLike_delete (pk : Z) : preserves (Store.PartyLike_delete pk).
Proof.
  intros db []. constructor; simpl; try done. by apply unique_on_delete.
Qed.

Create HintDb preserves discriminated.

#[local] Hint Resolve preserves_ret preserves_raise preserves_lift preserves_bind
  preserves_run_validation preserves_User_insert preserves_User_save
  preserves_UserProfile_create preserves_UserSettings_create : preserves.

Lemma consistent_empty : Schema.consistent empty_db.
Proof.
  constructor; simpl; try apply unique_on_empty; apply map_Forall_empty.
Qed.

Section Requests.
Context `{Framework}.

Lemma preserves_register (pk : Z) (now : datetime) (data : gmap string string) :
  preserves (UserRegistrationSerializer.register pk now data).
Proof.
  unfold UserRegistrationSerializer.register, UserRegistrationSerializer.create,
    UserRegistrationSerializer.create_user.
  auto 10 with preserves.
Qed.

Lemma preserves_login_validate (now : datetime) (attrs : gmap string string) :
  preserves (UserLoginSerializer.validate now attrs).
Proof.
  intros db Hdb. unfold UserLoginSerializer.validate.
  destruct (nonempty _ && nonempty _); [| done].
  destruct (UserLoginSerializer.authenticate db _ _) as [[user |] | e]; [| done | done].
  destruct (negb (User.is_active user)); [done |].
  apply preserves_bind; auto with preserves.
Qed.

Lemma preserves_login (now : datetime) (data : gmap string string) :
  preserves (UserLoginSerializer.login now data).
Proof. apply preserves_run_validation, preserves_login_validate. Qed.

Lemma preserves_change_password (user : User.t) (data : gmap string string) :
  preserves (PasswordChangeSerializer.change_password user data).
Proof.
  unfold PasswordChangeSerializer.change_password, PasswordChangeSerializer.save.
  auto 10 with preserves.
Qed.

(** Every request keeps the schema constraints. *)
Lemma handle_consistent (db : DB) (req : request) :
  Schema.consistent db → Schema.consistent (handle db req).
Proof.
  intros Hdb. destruct req as [pk now data | now data | user_pk data
    | r | pk r | pk | l | pk l | pk]; simpl.
  - by apply preserves_register.
  - by apply preserves_login.
  - destruct (users db !! user_pk) as [user |]; [| done].
    by apply preserves_change_password.
  - by apply preserves_PartyRSVP_create.
  - by apply preserves_PartyRSVP_update.
  - by apply preserves_PartyRSVP_delete.
  - by apply preserves_PartyLike_create.
  - by apply preserves_PartyLike_update.
  - by apply preserves_PartyLike_delete.
Qed.

Lemma run_consistent (reqs : list request) : Schema.consistent (run reqs).
Proof.
  unfold run. induction reqs as [| req reqs IH] using rev_ind.
  - apply consistent_empty.
  - rewrite foldl_app. simpl. by apply handle_consistent.
Qed.

End Requests.

(** C8. In every reachable store no two RSVP rows and no two like rows
    have the same (party, user) pair, and creating an RSVP, or a like, for
    a pair that already has one is rejected and leaves the store as it
    was. *)
Theorem unique_together_reachable `{Framework} (db : DB) :
  reachable db →
  (∀ pk1 pk2 r1 r2,
     party_rsvps db !! pk1 = Some r1 → party_rsvps db !! pk2 = Some r2 →
     PartyRSVP.party r1 = PartyRSVP.party r2 → PartyRSVP.user r1 = PartyRSVP.user r2 →
     pk1 = pk2) ∧
  (∀ pk1 pk2 l1 l2,
     party_likes db !! pk1 = Some l1 → party_likes db !! pk2 = Some l2 →
     PartyLike.party l1 = PartyLike.party l2 → PartyLike.user l1 = PartyLike.user l2 →
     pk1 = pk2) ∧
  (∀ pk r r',
     party_rsvps db !! pk = Some r →
     PartyRSVP.party r' = PartyRSVP.party r → PartyRSVP.user r' = PartyRSVP.user r →
     ∃ c, Store.PartyRSVP_create r' db = (Raise (IntegrityError c), db)) ∧
  (∀ pk l l',
     party_likes db !! pk = Some l →
     PartyLike.party l' = PartyLike.party l → PartyLike.user l' = PartyLike.user l →
     ∃ c, Store.PartyLike_create l' db = (Raise (IntegrityError c), db)).
Proof.
  intros [reqs <-]. destruct (run_consistent reqs) as [_ _ _ _ _ _ _ Hr Hl].
  split; [| split; [| split]].
  - intros pk1 pk2 r1 r2 H1 H2 Hparty Huser.
    apply (proj1 (unique_on_lookup _ _) Hr pk1 pk2 r1 r2 H1 H2).
    unfold Schema.rsvp_pair. by rewrite Hparty, Huser.
  - intros pk1 pk2 l1 l2 H1 H2 Hparty Huser.
    apply (proj1 (unique_on_lookup _ _) Hl pk1 pk2 l1 l2 H1 H2).
    unfold Schema.like_pair. by rewrite Hparty, Huser.
  - intros pk r r' Hpk Hparty Huser. unfold Store.PartyRSVP_create.
    assert (Store.rsvp_conflict (party_rsvps (run reqs)) r' = true) as ->; [| by eexists].
    apply bool_decide_eq_true, map_Exists_lookup. eauto.
  - intros pk l l' Hpk Hparty Huser. unfold Store.PartyLike_create.
    assert (Store.like_conflict (party_likes (run reqs)) l' = true) as ->; [| by eexists].
    apply bool_decide_eq_true, map_Exists_lookup. eauto.
Qed.

Lemma unique_together_reachable_witness :
  let db := @run Example.framework
              [CreateRSVP Example.rsvp_ann; CreateLike (PartyLike.mk 7 1)] in
  @reachable Example.framework db ∧
  party_rsvps db !! 1 = Some Example.rsvp_ann ∧
  ∃ c, Store.PartyRSVP_create (PartyRSVP.with_status "attending" Example.rsvp_ann) db =
         (Raise (IntegrityError c), db).
Proof.
  intros db.
  assert (Hreach : @reachable Example.framework db) by (by eexists).
  assert (Hrow : party_rsvps db !! 1 = Some Example.rsvp_ann) by (by vm_compute).
  split; [done |]. split; [done |].
  destruct (@unique_together_reachable Example.framework db Hreach) as (_ & _ & Hcreate & _).
  by apply (Hcreate 1 Example.rsvp_ann).
Defined.

(** ** Field validation *)






(** ** Registration *)

Section Registration.
Context `{Framework}.





End Registration.








Section Create.
Context `{Framework}.





End Create.



(** ** Login *)





Section Login.
Context `{Framework}.




End Login.





(** ** Password change *)

Section PasswordChange.
Context `{Framework}.



End PasswordChange.



